(** * scripts/TP1/denoise_image.py: the denoising command-line script

    A shallow embedding of [_build_arg_parser] and [main].  The script is a
    driver: it parses the command line, loads a NIfTI volume, reorients it,
    dispatches on the method id to one filter of [tools.denoise], subtracts,
    displays and saves.  The helper modules [tools.io], [tools.display] and
    [tools.denoise] are not part of the file; they enter the model as a
    record of functions ([tools]) whose results are either a value or a
    raised exception, and every call main makes is logged in a trace. *)

From Stdlib Require Import String ZArith Bool Arith Lia Floats List.
Import ListNotations.

Set Warnings "-inexact-float".
Local Open Scope string_scope.
Local Open Scope list_scope.

(** ** Python values that travel through the script as filter parameters *)

Inductive pyval : Type :=
| PyNone
| PyInt (z : Z)
| PyFloat (f : float).

(** ** numpy arrays *)

(** The scalar operations of an array's dtype that the script relies on:
    [-] (used by main), and [+] and [==] (used to state the residual
    identity). *)
Class Dtype (A : Type) : Type := {
  dzero : A;
  dsub : A -> A -> A;
  dadd : A -> A -> A;
  deqb : A -> A -> bool
}.

(** float64, what [get_fdata] of nibabel yields. *)
#[export] Instance float64 : Dtype float := {|
  dzero := 0%float;
  dsub := PrimFloat.sub;
  dadd := PrimFloat.add;
  deqb := PrimFloat.eqb
|}.

(** int16, the usual on-disk type of a NIfTI volume: two's complement
    wrap-around on 16 bits, a value being read modulo 2^16. *)
Definition wrap16 (z : Z) : Z := ((z + 32768) mod 65536 - 32768)%Z.

#[export] Instance int16 : Dtype Z := {|
  dzero := 0%Z;
  dsub := fun a b => wrap16 (a - b);
  dadd := fun a b => wrap16 (a + b);
  deqb := fun a b => Z.eqb (wrap16 a) (wrap16 b)
|}.


Section NdArray.
Context {A : Type} `{Dtype A}.

(** An ndarray: its shape tuple and its buffer in row-major order. *)
Record ndarray : Type := mk_ndarray {
  shape : list nat;
  flat : list A
}.

Definition size_of (s : list nat) : nat := fold_right Nat.mul 1 s.

Definition well_formed (a : ndarray) : Prop :=
  length (flat a) = size_of (shape a).

(** Two arrays of identical shape (and so of as many elements). *)
Definition same_shape (a b : ndarray) : Prop :=
  shape a = shape b /\ length (flat a) = length (flat b).

Fixpoint zip_with (f : A -> A -> A) (l1 l2 : list A) : list A :=
  match l1, l2 with
  | x :: l1', y :: l2' => f x y :: zip_with f l1' l2'
  | _, _ => []
  end.

(** numpy's broadcasting of two shapes, read from the trailing axis:
    axes agree when they are equal or one of them is 1. *)
Fixpoint broadcast_dims (r1 r2 : list nat) : option (list nat) :=
  match r1, r2 with
  | [], r => Some r
  | r, [] => Some r
  | d1 :: r1', d2 :: r2' =>
      match broadcast_dims r1' r2' with
      | None => None
      | Some r =>
          if Nat.eqb d1 d2 then Some (d1 :: r)
          else if Nat.eqb d1 1 then Some (d2 :: r)
          else if Nat.eqb d2 1 then Some (d1 :: r)
          else None
      end
  end.

Definition broadcast_shapes (s1 s2 : list nat) : option (list nat) :=
  option_map (@rev nat) (broadcast_dims (rev s1) (rev s2)).

(** The position in the source buffer of the element that lands at flat
    position [i] of the broadcast array; both shapes trailing axis first. *)
Fixpoint src_index (rt rs : list nat) (i stride : nat) : nat :=
  match rt, rs with
  | dt :: rt', ds :: rs' =>
      (if Nat.eqb ds 1 then 0 else (i mod dt) * stride)
      + src_index rt' rs' (i / dt) (stride * ds)
  | _, _ => 0
  end.

Definition broadcast_to (a : ndarray) (target : list nat) : list A :=
  map (fun i => nth (src_index (rev target) (rev (shape a)) i 1) (flat a) dzero)
      (seq 0 (size_of target)).

Definition list_eqb (s1 s2 : list nat) : bool :=
  if list_eq_dec Nat.eq_dec s1 s2 then true else false.

(** A binary operator on two arrays brought to their common shape; None
    (numpy raises ValueError) when the shapes are not compatible. *)
Definition broadcast_binop (f : A -> A -> A) (a b : ndarray) : option ndarray :=
  match broadcast_shapes (shape a) (shape b) with
  | Some s => Some (mk_ndarray s (zip_with f (broadcast_to a s) (broadcast_to b s)))
  | None => None
  end.

(** A binary operator on arrays: position by position when the shapes are
    the same, by broadcasting otherwise. *)
Definition ndarray_binop (f : A -> A -> A) (a b : ndarray) : option ndarray :=
  if list_eqb (shape a) (shape b)
  then Some (mk_ndarray (shape a) (zip_with f (flat a) (flat b)))
  else broadcast_binop f a b.

(** [a - b] and [a + b]. *)
Definition ndarray_sub : ndarray -> ndarray -> option ndarray := ndarray_binop dsub.



End NdArray.

Arguments ndarray A : clear implicits.

(** ** Exceptions and results of calls *)

Inductive exn : Type :=
| UnboundLocalError (name : string)
| ValueError (msg : string)
| ToolError (who : string).

Inductive outcome (R : Type) : Type :=
| Ret (r : R)
| Raise (e : exn).

Arguments Ret {R} r.
Arguments Raise {R} e.

(** ** The loaded image and the command line *)

Section Script.
Context {A : Type} `{Dtype A}.

(** What main reads of the object [check_valid_image] returns: the voxel
    array, [image.affine] and [image.header.get_zooms()]. *)
Record image : Type := mk_image {
  dataobj : ndarray A;
  affine : list (list float);
  get_zooms : list float
}.

(** The options given on the command line, each already converted by the
    [type=] of its [add_argument]; None for an option that is not given.
    The two positional arguments are required. *)
Record command_line : Type := mk_command_line {
  cl_in_image : string;
  cl_denoise_method : Z;
  cl_output_dir : option string;
  cl_axe : option Z;
  cl_sigma : option float;
  cl_patch_size : option Z;
  cl_patch_distance : option Z;
  cl_h : option Z;
  cl_sigma_color : option float;
  cl_sigma_spatial : option float;
  cl_n : option Z;
  cl_kappa : option float;
  cl_gamma : option float
}.

(** The namespace [parse_args] returns. *)
Record namespace : Type := mk_namespace {
  in_image : string;
  denoise_method : Z;
  output_dir : string;
  axe : pyval;
  sigma : pyval;
  patch_size : pyval;
  patch_distance : pyval;
  h : pyval;
  sigma_color : pyval;
  sigma_spatial : pyval;
  n : pyval;
  kappa : pyval;
  gamma : pyval
}.

Definition int_or (d : pyval) (o : option Z) : pyval :=
  match o with Some z => PyInt z | None => d end.

Definition float_or (d : pyval) (o : option float) : pyval :=
  match o with Some f => PyFloat f | None => d end.

(** [_build_arg_parser().parse_args()]: the defaults are those of the
    [add_argument] calls, kept as written there (argparse does not convert
    a default that is not a string). *)
Definition parse_args (c : command_line) : namespace := {|
  in_image := cl_in_image c;
  denoise_method := cl_denoise_method c;
  output_dir := match cl_output_dir c with Some d => d | None => "." end;
  axe := int_or (PyInt 0) (cl_axe c);
  sigma := float_or (PyInt 1) (cl_sigma c);
  patch_size := int_or (PyInt 5) (cl_patch_size c);
  patch_distance := int_or (PyInt 5) (cl_patch_distance c);
  h := int_or (PyInt 30) (cl_h c);
  sigma_color := float_or PyNone (cl_sigma_color c);
  sigma_spatial := float_or (PyInt 1) (cl_sigma_spatial c);
  n := int_or (PyInt 10) (cl_n c);
  kappa := float_or (PyInt 50) (cl_kappa c);
  gamma := float_or (PyFloat 0.1) (cl_gamma c)
|}.

(** ** The helper modules and the trace of calls *)

(** A call of one filter of [tools.denoise], with its arguments in the
    order main passes them. *)
Inductive denoise_call : Type :=
| NonLocalMeans (data : ndarray A) (h patch_size patch_distance : pyval)
| Gaussian (data : ndarray A) (sigma : pyval)
| Median (data : ndarray A) (patch_size : pyval)
| Bilateral (data : ndarray A) (patch_size sigma_color sigma_spatial : pyval)
| AnisotropicDiffusion (data : ndarray A) (niter kappa gamma : pyval).

Definition call_input (c : denoise_call) : ndarray A :=
  match c with
  | NonLocalMeans d _ _ _ | Gaussian d _ | Median d _
  | Bilateral d _ _ _ | AnisotropicDiffusion d _ _ _ => d
  end.

(** What main does that is visible outside it, in the order it happens.
    The last argument of a save is the keyword [residual]: None when the
    call does not give it (the helper's default applies). *)
Inductive event : Type :=
| EvCheckValidImage (path : string)
| EvReorient (img : image)
| EvClock (t : float)
| EvDenoise (c : denoise_call)
| EvPrint (method_name : string) (execution_time : float)
| EvSubtract (a b : ndarray A)
| EvDisplay (v : ndarray A) (voxel_sizes : list float) (axe : pyval)
| EvSave (v : ndarray A) (affine : list (list float)) (in_image method_name : string)
         (parameters : list pyval) (output_dir : string) (residual : option bool).

(** The functions main calls in [tools.io], [tools.denoise],
    [tools.display] and [time].  [check_valid_image] returns an image or
    a false value (None here); [time_time k] is the clock read after [k]
    events. *)
Record tools : Type := mk_tools {
  check_valid_image : string -> outcome (option image);
  reorient_data_rsa : image -> outcome (ndarray A);
  denoise_non_local_means : ndarray A -> pyval -> pyval -> pyval -> outcome (ndarray A);
  denoise_gaussian : ndarray A -> pyval -> outcome (ndarray A);
  denoise_median : ndarray A -> pyval -> outcome (ndarray A);
  denoise_bilateral : ndarray A -> pyval -> pyval -> pyval -> outcome (ndarray A);
  denoise_anisotropic_diffusion : ndarray A -> pyval -> pyval -> pyval -> outcome (ndarray A);
  display_image : ndarray A -> list float -> pyval -> outcome unit;
  save_nifti_image : ndarray A -> list (list float) -> string -> string ->
                     list pyval -> string -> option bool -> outcome unit;
  time_time : nat -> float
}.

Definition run_denoise (T : tools) (c : denoise_call) : outcome (ndarray A) :=
  match c with
  | NonLocalMeans d a b c => denoise_non_local_means T d a b c
  | Gaussian d s => denoise_gaussian T d s
  | Median d p => denoise_median T d p
  | Bilateral d p sc ss => denoise_bilateral T d p sc ss
  | AnisotropicDiffusion d i k g => denoise_anisotropic_diffusion T d i k g
  end.

(** ** A monad for main: a trace that grows, and exceptions *)

Definition M (R : Type) : Type := list event -> outcome R * list event.

Definition ret {R} (r : R) : M R := fun tr => (Ret r, tr).

Definition bind {R S} (m : M R) (k : R -> M S) : M S :=
  fun tr =>
    match m tr with
    | (Ret r, tr') => k r tr'
    | (Raise e, tr') => (Raise e, tr')
    end.

Definition raise {R} (e : exn) : M R := fun tr => (Raise e, tr).

(** A call of a helper: the call is logged, then its result is had. *)
Definition call {R} (ev : event) (o : outcome R) : M R :=
  fun tr => (o, tr ++ [ev]).

Definition clock (T : tools) : M float :=
  fun tr => let t := time_time T (List.length tr) in (Ret t, tr ++ [EvClock t]).

End Script.

Arguments image A : clear implicits.
Arguments denoise_call A : clear implicits.
Arguments event A : clear implicits.
Arguments tools A : clear implicits.
Arguments M A R : clear implicits.

Declare Scope py_scope.
Delimit Scope py_scope with py.
Notation "x <- m ;; k" := (bind m (fun x => k))
  (at level 100, m at next level, right associativity) : py_scope.
Notation "m ;; k" := (bind m (fun _ => k))
  (at level 100, right associativity) : py_scope.

(** ** main *)

Section Main.
Context {A : Type} `{Dtype A}.
Variable T : tools A.

Local Open Scope py_scope.
Local Open Scope Z_scope.

(** The locals the if/elif chain may bind.  [denoised_image] has no value
    before the chain (None: the name is unbound); [method_name] and
    [parameters] start as the empty string and the empty list. *)
Record locals : Type := mk_locals {
  denoised_image : option (ndarray A);
  method_name : string;
  parameters : list pyval
}.

(** The branch the chain takes: the filter call it makes and what it
    assigns to [method_name] and [parameters]; None when no test of the
    chain holds (the chain has no else). *)
Definition select (args : namespace) (data : ndarray A)
  : option (denoise_call A * string * list pyval) :=
  if denoise_method args =? 0 then
    Some (NonLocalMeans data (h args) (patch_size args) (patch_distance args),
          "nl_means", [h args; patch_size args; patch_distance args])
  else if denoise_method args =? 1 then
    Some (Gaussian data (sigma args), "gaussian", [sigma args])
  else if denoise_method args =? 3 then
    Some (Median data (patch_size args), "median", [patch_size args])
  else if denoise_method args =? 4 then
    Some (Bilateral data (patch_size args) (sigma_color args) (sigma_spatial args),
          "bilateral", [patch_size args; sigma_color args; sigma_spatial args])
  else if denoise_method args =? 5 then
    Some (AnisotropicDiffusion data (n args) (kappa args) (gamma args),
          "anisotropic_diffusion", [n args; kappa args; gamma args])
  else None.

(** Lines 128 to 152: the initial bindings and the chain. *)
Definition dispatch (args : namespace) (data : ndarray A) : M A locals :=
  match select args data with
  | Some (c, name, params) =>
      d <- call (EvDenoise c) (run_denoise T c) ;;
      ret (mk_locals (Some d) name params)
  | None => ret (mk_locals None EmptyString [])
  end.

(** Reading the local [denoised_image]. *)
Definition read_denoised_image (l : locals) : M A (ndarray A) :=
  match denoised_image l with
  | Some d => ret d
  | None => raise (UnboundLocalError "denoised_image")
  end.

(** [data - denoised_image]. *)
Definition subtract (a b : ndarray A) : M A (ndarray A) :=
  call (EvSubtract a b)
       (match ndarray_sub a b with
        | Some r => Ret r
        | None => Raise (ValueError "operands could not be broadcast together")
        end).

(** The body of main after [parse_args]. *)
Definition main_body (args : namespace) : M A unit :=
  image <- call (EvCheckValidImage (in_image args)) (check_valid_image T (in_image args)) ;;
  match image with
  | None => ret tt
  | Some image =>
      data <- call (EvReorient image) (reorient_data_rsa T image) ;;
      let affine := affine image in
      let voxel_sizes := get_zooms image in
      start_time <- clock T ;;
      l <- dispatch args data ;;
      end_time <- clock T ;;
      let execution_time := PrimFloat.sub end_time start_time in
      call (EvPrint (method_name l) execution_time) (Ret tt) ;;
      denoised <- read_denoised_image l ;;
      residual_image <- subtract data denoised ;;
      call (EvDisplay denoised voxel_sizes (axe args))
           (display_image T denoised voxel_sizes (axe args)) ;;
      call (EvDisplay residual_image voxel_sizes (axe args))
           (display_image T residual_image voxel_sizes (axe args)) ;;
      call (EvSave denoised affine (in_image args) (method_name l) (parameters l)
                   (output_dir args) None)
           (save_nifti_image T denoised affine (in_image args) (method_name l)
                             (parameters l) (output_dir args) None) ;;
      call (EvSave residual_image affine (in_image args) (method_name l) (parameters l)
                   (output_dir args) (Some true))
           (save_nifti_image T residual_image affine (in_image args) (method_name l)
                             (parameters l) (output_dir args) (Some true))
  end.

(** main on a command line, from an empty trace. *)
Definition main (c : command_line) : outcome unit * list (event A) :=
  main_body (parse_args c) [].

(** The status the interpreter exits with: 0 when main returns, 1 when an
    exception leaves it. *)
Definition exit_status (r : outcome unit * list (event A)) : Z :=
  match fst r with
  | Ret _ => 0
  | Raise _ => 1
  end.

End Main.

(** ** Reading a trace *)

(** The six stages of the workflow. *)
Inductive stage : Type :=
| Load | Normalize | Denoising | Residual | Display | Persist.

Section Traces.
Context {A : Type} `{Dtype A}.

(** The stage an event belongs to; reading the clock and printing the
    timing line belong to none. *)
Definition stage_of (e : event A) : option stage :=
  match e with
  | EvCheckValidImage _ => Some Load
  | EvReorient _ => Some Normalize
  | EvDenoise _ => Some Denoising
  | EvSubtract _ _ => Some Residual
  | EvDisplay _ _ _ => Some Display
  | EvSave _ _ _ _ _ _ _ => Some Persist
  | EvClock _ | EvPrint _ _ => None
  end.

Fixpoint stages (tr : list (event A)) : list stage :=
  match tr with
  | [] => []
  | e :: tr' =>
      match stage_of e with
      | Some s => s :: stages tr'
      | None => stages tr'
      end
  end.

(** The stages of a complete run: the display and the writer are called
    twice each, for the denoised and then for the residual volume. *)
Definition workflow : list stage :=
  [Load; Normalize; Denoising; Residual; Display; Display; Persist; Persist].

(** A call of [save_nifti_image] as a trace records it. *)
Record saved : Type := mk_saved {
  s_array : ndarray A;
  s_affine : list (list float);
  s_name : string;
  s_parameters : list pyval;
  s_residual : option bool
}.

(** The calls of [save_nifti_image] in a trace, in order. *)
Fixpoint saves (tr : list (event A)) : list saved :=
  match tr with
  | [] => []
  | EvSave v aff _ name params _ r :: tr' => mk_saved v aff name params r :: saves tr'
  | _ :: tr' => saves tr'
  end.

(** A call of [display_image] as a trace records it. *)
Record displayed : Type := mk_displayed {
  d_array : ndarray A;
  d_voxel_sizes : list float
}.

(** The calls of [display_image] in a trace, in order. *)
Fixpoint displays (tr : list (event A)) : list displayed :=
  match tr with
  | [] => []
  | EvDisplay v z _ :: tr' => mk_displayed v z :: displays tr'
  | _ :: tr' => displays tr'
  end.

(** The filter calls in a trace. *)
Fixpoint denoise_calls (tr : list (event A)) : list (denoise_call A) :=
  match tr with
  | [] => []
  | EvDenoise c :: tr' => c :: denoise_calls tr'
  | _ :: tr' => denoise_calls tr'
  end.

(** The method ids the if/elif chain of main tests for. *)
Definition supported (m : Z) : bool :=
  (m =? 0)%Z || (m =? 1)%Z || (m =? 3)%Z || (m =? 4)%Z || (m =? 5)%Z.

(** Modelled from the spec: the filters of [tools.denoise], which are not
    in the file.  Section 4.3 gives their contract: a filter "returns a
    denoised array of identical shape".  A call that returns (it may raise
    on parameters it refuses) returns an array shaped as its input. *)
Definition denoise_contract (T : tools A) : Prop :=
  forall (c : denoise_call A) (out : ndarray A),
    run_denoise T c = Ret out -> same_shape (call_input c) out.

(** The stages up to the residual went through: the loader gave [img],
    the reorientation [data], the chain chose the call [c] with its name
    and parameters, the filter gave [den] and the subtraction [res]. *)
Definition prepared (T : tools A) (args : namespace) (img : image A)
    (data : ndarray A) (c : denoise_call A) (name : string)
    (params : list pyval) (den res : ndarray A) : Prop :=
  check_valid_image T (in_image args) = Ret (Some img) /\
  reorient_data_rsa T img = Ret data /\
  select args data = Some (c, name, params) /\
  run_denoise T c = Ret den /\
  ndarray_sub data den = Some res.

(** The trace of a run in which every call returns. *)
Definition full_trace (T : tools A) (args : namespace) (img : image A)
    (data : ndarray A) (c : denoise_call A) (name : string)
    (params : list pyval) (den res : ndarray A) : list (event A) :=
  [ EvCheckValidImage (in_image args);
    EvReorient img;
    EvClock (time_time T 2);
    EvDenoise c;
    EvClock (time_time T 4);
    EvPrint name (PrimFloat.sub (time_time T 4) (time_time T 2));
    EvSubtract data den;
    EvDisplay den (get_zooms img) (axe args);
    EvDisplay res (get_zooms img) (axe args);
    EvSave den (affine img) (in_image args) name params (output_dir args) None;
    EvSave res (affine img) (in_image args) name params (output_dir args) (Some true) ].

(** A run that ends before the display: the loader raised or gave no
    image, or a later call raised, or no branch of the chain was taken. *)
Inductive early_end (T : tools A) (args : namespace)
  : outcome unit * list (event A) -> Prop :=
| EndLoadRaises e :
    check_valid_image T (in_image args) = Raise e ->
    early_end T args (Raise e, [EvCheckValidImage (in_image args)])
| EndLoadNone :
    check_valid_image T (in_image args) = Ret None ->
    early_end T args (Ret tt, [EvCheckValidImage (in_image args)])
| EndReorient e img :
    early_end T args (Raise e, [EvCheckValidImage (in_image args); EvReorient img])
| EndNoBranch img t0 t1 :
    early_end T args
      (Raise (UnboundLocalError "denoised_image"),
       [ EvCheckValidImage (in_image args); EvReorient img;
         EvClock t0; EvClock t1; EvPrint EmptyString (PrimFloat.sub t1 t0) ])
| EndDenoise e img data c name params :
    early_end T args (Raise e, firstn 4 (full_trace T args img data c name params data data))
| EndSubtract e img data c name params den :
    early_end T args (Raise e, firstn 7 (full_trace T args img data c name params den den)).

(** An array that comes from the reoriented array [data]: the result of a
    filter applied to [data], or [data] minus such a result. *)
Definition from_reoriented (T : tools A) (data v : ndarray A) : Prop :=
  exists (c : denoise_call A) (den : ndarray A),
    call_input c = data /\ run_denoise T c = Ret den /\
    (v = den \/ ndarray_sub data den = Some v).

End Traces.

(** ** Stand-ins for the helper modules, for concrete runs *)

Section Demo.
Context {A : Type} `{Dtype A}.

(** Helpers that behave: the loader knows one image and returns None for
    the path "missing.nii"; the reorientation flips the buffer; every
    filter applies [smooth] to the buffer and keeps the shape; the display
    works when [screen] is true and raises otherwise; saving works. *)
Definition demo_tools (img : image A) (smooth : list A -> list A) (screen : bool)
  : tools A := {|
  check_valid_image := fun path =>
    if String.eqb path "missing.nii" then Ret None else Ret (Some img);
  reorient_data_rsa := fun i =>
    Ret (mk_ndarray (shape (dataobj i)) (rev (flat (dataobj i))));
  denoise_non_local_means := fun d _ _ _ => Ret (mk_ndarray (shape d) (smooth (flat d)));
  denoise_gaussian := fun d _ => Ret (mk_ndarray (shape d) (smooth (flat d)));
  denoise_median := fun d _ => Ret (mk_ndarray (shape d) (smooth (flat d)));
  denoise_bilateral := fun d _ _ _ => Ret (mk_ndarray (shape d) (smooth (flat d)));
  denoise_anisotropic_diffusion := fun d _ _ _ => Ret (mk_ndarray (shape d) (smooth (flat d)));
  display_image := fun _ _ _ => if screen then Ret tt else Raise (ToolError "display_image");
  save_nifti_image := fun _ _ _ _ _ _ _ => Ret tt;
  time_time := fun _ => 0%float
|}.

(** Each voxel but the last becomes the mean of itself and the next. *)
Fixpoint smooth2 (half : A -> A -> A) (l : list A) : list A :=
  match l with
  | x :: ((y :: _) as l') => half x y :: smooth2 half l'
  | _ => l
  end.

End Demo.

Definition identity4 : list (list float) :=
  [ [1; 0; 0; 0]; [0; 1; 0; 0]; [0; 0; 1; 0]; [0; 0; 0; 1] ]%float.

(** A float64 volume of shape (2, 1, 1) with voxels 0.9 and 0.1. *)
Definition volume64 : image float :=
  mk_image (mk_ndarray [2; 1; 1]%nat [0.9; 0.1]%float) identity4 [1; 1; 1]%float.

Definition mean64 (x y : float) : float := PrimFloat.div (PrimFloat.add x y) 2.

Definition tools64 (screen : bool) : tools float :=
  demo_tools volume64 (smooth2 mean64) screen.

(** An int16 volume of shape (2, 1, 1). *)
Definition volume16 : image Z :=
  mk_image (mk_ndarray [2; 1; 1]%nat [900; -32000]%Z) identity4 [1; 1; 1]%float.

Definition mean16 (x y : Z) : Z := wrap16 ((x + y) / 2).

Definition tools16 : tools Z := demo_tools volume16 (smooth2 mean16) true.

(** Helpers whose median filter breaks the contract: it returns a single
    voxel, of shape (1, 1, 1), whatever it is given. *)
Definition crop_tools : tools Z := {|
  check_valid_image := check_valid_image tools16;
  reorient_data_rsa := reorient_data_rsa tools16;
  denoise_non_local_means := denoise_non_local_means tools16;
  denoise_gaussian := denoise_gaussian tools16;
  denoise_median := fun d _ => Ret (mk_ndarray [1; 1; 1]%nat (firstn 1 (flat d)));
  denoise_bilateral := denoise_bilateral tools16;
  denoise_anisotropic_diffusion := denoise_anisotropic_diffusion tools16;
  display_image := display_image tools16;
  save_nifti_image := save_nifti_image tools16;
  time_time := time_time tools16
|}.

(** [denoise_script <path> <method>] with no option given. *)
Definition bare_command (path : string) (method : Z) : command_line :=
  mk_command_line path method None None None None None None None None None None None.

(** ** Runs in full, and what a run depends on *)

Section Runs.
Context {A : Type} `{Dtype A}.

(** How a run of main can end, with the results of the calls that lead
    there: one case for each call that may raise, one for the loader giving
    no image, one for the chain taking no branch, and the last for the
    second save, whose result is the result of main. *)
Inductive run_ends (T : tools A) (args : namespace)
  : outcome unit * list (event A) -> Prop :=
| LoadRaises e :
    check_valid_image T (in_image args) = Raise e ->
    run_ends T args (Raise e, [EvCheckValidImage (in_image args)])
| LoadNone :
    check_valid_image T (in_image args) = Ret None ->
    run_ends T args (Ret tt, [EvCheckValidImage (in_image args)])
| ReorientRaises img e :
    check_valid_image T (in_image args) = Ret (Some img) ->
    reorient_data_rsa T img = Raise e ->
    run_ends T args (Raise e, [EvCheckValidImage (in_image args); EvReorient img])
| NoBranch img data :
    check_valid_image T (in_image args) = Ret (Some img) ->
    reorient_data_rsa T img = Ret data ->
    select args data = None ->
    run_ends T args
      (Raise (UnboundLocalError "denoised_image"),
       [ EvCheckValidImage (in_image args); EvReorient img;
         EvClock (time_time T 2); EvClock (time_time T 3);
         EvPrint EmptyString (PrimFloat.sub (time_time T 3) (time_time T 2)) ])
| DenoiseRaises img data c name params e :
    check_valid_image T (in_image args) = Ret (Some img) ->
    reorient_data_rsa T img = Ret data ->
    select args data = Some (c, name, params) ->
    run_denoise T c = Raise e ->
    run_ends T args
      (Raise e, firstn 4 (full_trace T args img data c name params data data))
| SubtractRaises img data c name params den :
    check_valid_image T (in_image args) = Ret (Some img) ->
    reorient_data_rsa T img = Ret data ->
    select args data = Some (c, name, params) ->
    run_denoise T c = Ret den ->
    ndarray_sub data den = None ->
    run_ends T args
      (Raise (ValueError "operands could not be broadcast together"),
       firstn 7 (full_trace T args img data c name params den den))
| DisplayDenoisedRaises img data c name params den res e :
    prepared T args img data c name params den res ->
    display_image T den (get_zooms img) (axe args) = Raise e ->
    run_ends T args
      (Raise e, firstn 8 (full_trace T args img data c name params den res))
| DisplayResidualRaises img data c name params den res e :
    prepared T args img data c name params den res ->
    display_image T den (get_zooms img) (axe args) = Ret tt ->
    display_image T res (get_zooms img) (axe args) = Raise e ->
    run_ends T args
      (Raise e, firstn 9 (full_trace T args img data c name params den res))
| SaveDenoisedRaises img data c name params den res e :
    prepared T args img data c name params den res ->
    display_image T den (get_zooms img) (axe args) = Ret tt ->
    display_image T res (get_zooms img) (axe args) = Ret tt ->
    save_nifti_image T den (affine img) (in_image args) name params
      (output_dir args) None = Raise e ->
    run_ends T args
      (Raise e, firstn 10 (full_trace T args img data c name params den res))
| SaveResidual img data c name params den res o :
    prepared T args img data c name params den res ->
    display_image T den (get_zooms img) (axe args) = Ret tt ->
    display_image T res (get_zooms img) (axe args) = Ret tt ->
    save_nifti_image T den (affine img) (in_image args) name params
      (output_dir args) None = Ret tt ->
    save_nifti_image T res (affine img) (in_image args) name params
      (output_dir args) (Some true) = o ->
    run_ends T args (o, full_trace T args img data c name params den res).

(** The options the branch for the method id reads; none for an id the
    chain does not test for. *)
Definition used_options (args : namespace) : list pyval :=
  if (denoise_method args =? 0)%Z then [h args; patch_size args; patch_distance args]
  else if (denoise_method args =? 1)%Z then [sigma args]
  else if (denoise_method args =? 3)%Z then [patch_size args]
  else if (denoise_method args =? 4)%Z then
    [patch_size args; sigma_color args; sigma_spatial args]
  else if (denoise_method args =? 5)%Z then [n args; kappa args; gamma args]
  else [].

(** Two namespaces that agree on the input path, the method id, the output
    directory, the display axis and the options the method reads. *)
Definition same_request (a1 a2 : namespace) : Prop :=
  in_image a1 = in_image a2 /\
  denoise_method a1 = denoise_method a2 /\
  output_dir a1 = output_dir a2 /\
  axe a1 = axe a2 /\
  used_options a1 = used_options a2.

(** Helpers that never raise. *)
Definition total_tools (T : tools A) : Prop :=
  (forall path, exists o, check_valid_image T path = Ret o) /\
  (forall img, exists d, reorient_data_rsa T img = Ret d) /\
  (forall c, exists d, run_denoise T c = Ret d) /\
  (forall v z a, display_image T v z a = Ret tt) /\
  (forall v aff i nm ps o r, save_nifti_image T v aff i nm ps o r = Ret tt).


(** Where the calls of [save_nifti_image] in a trace write and under what
    name: the input path, the output directory, the method name and the
    parameter list. *)
Fixpoint save_targets (tr : list (event A))
  : list (string * string * string * list pyval) :=
  match tr with
  | [] => []
  | EvSave _ _ i name params o _ :: tr' => (i, o, name, params) :: save_targets tr'
  | _ :: tr' => save_targets tr'
  end.

(** The axis each call of [display_image] in a trace is given. *)
Fixpoint display_axes (tr : list (event A)) : list pyval :=
  match tr with
  | [] => []
  | EvDisplay _ _ a :: tr' => a :: display_axes tr'
  | _ :: tr' => display_axes tr'
  end.

(** The method names printed in a trace. *)
Fixpoint printed_names (tr : list (event A)) : list string :=
  match tr with
  | [] => []
  | EvPrint name _ :: tr' => name :: printed_names tr'
  | _ :: tr' => printed_names tr'
  end.

End Runs.

(** A command line that gives every option. *)
Definition busy_command (path : string) (method : Z) : command_line :=
  mk_command_line path method (Some "out") (Some 2%Z) (Some 2.5%float) (Some 7%Z)
    (Some 9%Z) (Some 12%Z) (Some 0.3%float) (Some 1.5%float) (Some 4%Z)
    (Some 20%float) (Some 0.2%float).

(** Unfolding main down to its calls. *)
Ltac unfold_main :=
  unfold main, main_body, dispatch, read_denoised_image, subtract,
    clock, call, bind, ret, raise.

(** * Facts *)

(** ** Arrays *)

Section NdArrayFacts.
Context {A : Type} `{Dtype A}.

Lemma list_eqb_refl (s : list nat) : list_eqb s s = true.
Proof. unfold list_eqb. destruct (list_eq_dec Nat.eq_dec s s); congruence. Qed.

Lemma list_eqb_eq (s1 s2 : list nat) : list_eqb s1 s2 = true -> s1 = s2.
Proof. unfold list_eqb. destruct (list_eq_dec Nat.eq_dec s1 s2); congruence. Qed.


(** On arrays of one shape, a binary operator works position by position. *)
Lemma binop_same_shape (f : A -> A -> A) (a b : ndarray A) :
  shape a = shape b ->
  ndarray_binop f a b = Some (mk_ndarray (shape a) (zip_with f (flat a) (flat b))).
Proof.
  intros E. unfold ndarray_binop. rewrite E, list_eqb_refl. reflexivity.
Qed.


Lemma smooth2_length (half : A -> A -> A) (l : list A) :
  length (smooth2 half l) = length l.
Proof.
  induction l as [|x [|y l] IH]; simpl in *; auto.
Qed.

Lemma size_of_app (s1 s2 : list nat) :
  size_of (s1 ++ s2) = size_of s1 * size_of s2.
Proof.
  induction s1 as [|d s1 IH]; simpl; [lia|]. rewrite IH. lia.
Qed.

Lemma size_of_rev (s : list nat) : size_of (rev s) = size_of s.
Proof.
  induction s as [|d s IH]; simpl; [reflexivity|].
  rewrite size_of_app, IH. simpl. lia.
Qed.

Lemma broadcast_dims_refl (r : list nat) : broadcast_dims r r = Some r.
Proof.
  induction r as [|d r IH]; simpl; [reflexivity|].
  rewrite IH, Nat.eqb_refl. reflexivity.
Qed.

Lemma broadcast_shapes_refl (s : list nat) : broadcast_shapes s s = Some s.
Proof.
  unfold broadcast_shapes. rewrite broadcast_dims_refl. simpl.
  rewrite rev_involutive. reflexivity.
Qed.

(** Broadcasting to the array's own shape moves no element. *)
Lemma src_index_self (r : list nat) (i stride : nat) :
  i < size_of r -> src_index r r i stride = i * stride.
Proof.
  revert i stride. induction r as [|d r IH]; intros i stride Hi; simpl in *.
  - assert (i = 0) by lia. subst. reflexivity.
  - assert (Hd : d <> 0) by (intros ->; simpl in Hi; lia).
    assert (Hq : i / d < size_of r)
      by (apply Nat.Div0.div_lt_upper_bound; assumption).
    rewrite (IH _ _ Hq).
    pose proof (Nat.div_mod_eq i d) as Hdm.
    destruct (Nat.eqb_spec d 1) as [-> | Hne].
    + rewrite Nat.div_1_r. lia.
    + nia.
Qed.

Lemma nth_seq (l : list A) (d : A) :
  map (fun i => nth i l d) (seq 0 (length l)) = l.
Proof.
  induction l as [|x l IH]; simpl; [reflexivity|].
  rewrite <- seq_shift, map_map. simpl. rewrite IH. reflexivity.
Qed.

Lemma broadcast_to_self (a : ndarray A) :
  well_formed a -> broadcast_to a (shape a) = flat a.
Proof.
  intros W. unfold broadcast_to.
  transitivity (map (fun i => nth i (flat a) dzero) (seq 0 (length (flat a))));
    [|apply nth_seq].
  rewrite W. apply map_ext_in. intros i Hi. apply in_seq in Hi.
  rewrite src_index_self by (rewrite size_of_rev; lia).
  f_equal. lia.
Qed.

(** On well-formed arrays of one shape, broadcasting is the elementwise
    operation: the two paths of [ndarray_binop] agree. *)
Lemma broadcast_binop_same_shape (f : A -> A -> A) (a b : ndarray A) :
  well_formed a -> well_formed b -> shape a = shape b ->
  broadcast_binop f a b = Some (mk_ndarray (shape a) (zip_with f (flat a) (flat b))).
Proof.
  intros Wa Wb E. unfold broadcast_binop.
  rewrite <- E, broadcast_shapes_refl, (broadcast_to_self a Wa).
  rewrite E, (broadcast_to_self b Wb). reflexivity.
Qed.

End NdArrayFacts.

(** numpy's broadcasting on small arrays: a column against a row, a
    matrix against a row, and two shapes that do not go together. *)
Example broadcast_column_row :
  ndarray_sub (mk_ndarray [2; 1] [10; 20]%Z) (mk_ndarray [3] [1; 2; 3]%Z)
  = Some (mk_ndarray [2; 3] [9; 8; 7; 19; 18; 17]%Z).
Proof. reflexivity. Qed.

Example broadcast_matrix_row :
  ndarray_sub (mk_ndarray [2; 3] [10; 20; 30; 40; 50; 60]%Z) (mk_ndarray [3] [1; 2; 3]%Z)
  = Some (mk_ndarray [2; 3] [9; 18; 27; 39; 48; 57]%Z).
Proof. reflexivity. Qed.

Example broadcast_mismatch :
  ndarray_sub (mk_ndarray [2] [10; 20]%Z) (mk_ndarray [3] [1; 2; 3]%Z) = None.
Proof. reflexivity. Qed.




(** ** The if/elif chain *)

Section ChainFacts.
Context {A : Type} `{Dtype A}.

(** The chain takes no branch exactly on the ids it does not test for. *)
Lemma select_none (args : namespace) (data : ndarray A) :
  select args data = None <-> supported (denoise_method args) = false.
Proof.
  unfold select, supported.
  destruct (denoise_method args =? 0)%Z, (denoise_method args =? 1)%Z,
    (denoise_method args =? 3)%Z, (denoise_method args =? 4)%Z,
    (denoise_method args =? 5)%Z; simpl; split; congruence.
Qed.

(** Whatever branch is taken, the filter is given the reoriented array. *)
Lemma select_input (args : namespace) (data : ndarray A) c name params :
  select args data = Some (c, name, params) -> call_input c = data.
Proof.
  unfold select.
  destruct (denoise_method args =? 0)%Z; [intros E; inversion E; reflexivity|].
  destruct (denoise_method args =? 1)%Z; [intros E; inversion E; reflexivity|].
  destruct (denoise_method args =? 3)%Z; [intros E; inversion E; reflexivity|].
  destruct (denoise_method args =? 4)%Z; [intros E; inversion E; reflexivity|].
  destruct (denoise_method args =? 5)%Z; [intros E; inversion E; reflexivity|].
  discriminate.
Qed.

End ChainFacts.

(** ** Runs of main *)

Section MainFacts.
Context {A : Type} `{Dtype A}.
Variable T : tools A.
Variable args : namespace.

(** The loader raises: the exception leaves main at once. *)
Lemma main_load_raises (e : exn) :
  check_valid_image T (in_image args) = Raise e ->
  main_body T args [] = (Raise e, [EvCheckValidImage (in_image args)]).
Proof. intros E. unfold_main. rewrite E. reflexivity. Qed.

(** The loader returns a false value: the body of the [if image:] is
    skipped and main returns. *)
Lemma main_load_none :
  check_valid_image T (in_image args) = Ret None ->
  main_body T args [] = (Ret tt, [EvCheckValidImage (in_image args)]).
Proof. intros E. unfold_main. rewrite E. reflexivity. Qed.

Lemma main_reorient_raises (img : image A) (e : exn) :
  check_valid_image T (in_image args) = Ret (Some img) ->
  reorient_data_rsa T img = Raise e ->
  main_body T args [] =
    (Raise e, [EvCheckValidImage (in_image args); EvReorient img]).
Proof. intros E1 E2. unfold_main. rewrite E1. simpl. rewrite E2. reflexivity. Qed.

(** No branch of the chain is taken: [denoised_image] is read unbound,
    after the timing line was printed with the empty method name. *)
Lemma main_no_branch (img : image A) (data : ndarray A) :
  check_valid_image T (in_image args) = Ret (Some img) ->
  reorient_data_rsa T img = Ret data ->
  select args data = None ->
  main_body T args [] =
    (Raise (UnboundLocalError "denoised_image"),
     [ EvCheckValidImage (in_image args); EvReorient img;
       EvClock (time_time T 2); EvClock (time_time T 3);
       EvPrint EmptyString (PrimFloat.sub (time_time T 3) (time_time T 2)) ]).
Proof.
  intros E1 E2 E3. unfold_main. rewrite E1. simpl. rewrite E2. simpl.
  rewrite E3. reflexivity.
Qed.

Lemma main_denoise_raises (img : image A) (data : ndarray A) c name params e :
  check_valid_image T (in_image args) = Ret (Some img) ->
  reorient_data_rsa T img = Ret data ->
  select args data = Some (c, name, params) ->
  run_denoise T c = Raise e ->
  main_body T args [] =
    (Raise e, firstn 4 (full_trace T args img data c name params data data)).
Proof.
  intros E1 E2 E3 E4. unfold_main. rewrite E1. simpl. rewrite E2. simpl.
  rewrite E3. simpl. rewrite E4. reflexivity.
Qed.

Lemma main_subtract_raises (img : image A) (data : ndarray A) c name params den :
  check_valid_image T (in_image args) = Ret (Some img) ->
  reorient_data_rsa T img = Ret data ->
  select args data = Some (c, name, params) ->
  run_denoise T c = Ret den ->
  ndarray_sub data den = None ->
  main_body T args [] =
    (Raise (ValueError "operands could not be broadcast together"),
     firstn 7 (full_trace T args img data c name params den den)).
Proof.
  intros E1 E2 E3 E4 E5. unfold_main. rewrite E1. simpl. rewrite E2. simpl.
  rewrite E3. simpl. rewrite E4. simpl. rewrite E5. reflexivity.
Qed.

(** From the residual on, main is four calls in a row; the first that
    raises ends the run. *)
Lemma main_prepared (img : image A) (data : ndarray A) c name params den res :
  prepared T args img data c name params den res ->
  let tr := full_trace T args img data c name params den res in
  main_body T args [] =
    match display_image T den (get_zooms img) (axe args) with
    | Raise e => (Raise e, firstn 8 tr)
    | Ret _ =>
      match display_image T res (get_zooms img) (axe args) with
      | Raise e => (Raise e, firstn 9 tr)
      | Ret _ =>
        match save_nifti_image T den (affine img) (in_image args) name params
                (output_dir args) None with
        | Raise e => (Raise e, firstn 10 tr)
        | Ret _ =>
          (save_nifti_image T res (affine img) (in_image args) name params
             (output_dir args) (Some true), tr)
        end
      end
    end.
Proof.
  intros (E1 & E2 & E3 & E4 & E5). unfold_main.
  rewrite E1. simpl. rewrite E2. simpl. rewrite E3. simpl. rewrite E4. simpl.
  rewrite E5. simpl.
  destruct (display_image T den _ _); [|reflexivity].
  destruct (display_image T res _ _); [|reflexivity].
  destruct (save_nifti_image T den _ _ _ _ _ None); reflexivity.
Qed.

(** Every call returns: main returns, with the full trace. *)
Lemma main_full (img : image A) (data : ndarray A) c name params den res :
  prepared T args img data c name params den res ->
  display_image T den (get_zooms img) (axe args) = Ret tt ->
  display_image T res (get_zooms img) (axe args) = Ret tt ->
  save_nifti_image T den (affine img) (in_image args) name params
    (output_dir args) None = Ret tt ->
  save_nifti_image T res (affine img) (in_image args) name params
    (output_dir args) (Some true) = Ret tt ->
  main_body T args [] = (Ret tt, full_trace T args img data c name params den res).
Proof.
  intros P D1 D2 S1 S2. rewrite (main_prepared _ _ _ _ _ _ _ P).
  simpl. rewrite D1, D2, S1, S2. reflexivity.
Qed.

Lemma main_early_or_prepared :
  early_end T args (main_body T args []) \/
  exists img data c name params den res,
    prepared T args img data c name params den res.
Proof.
  destruct (check_valid_image T (in_image args)) as [[img|]|e] eqn:E1.
  2: { left. rewrite (main_load_none E1). constructor. assumption. }
  2: { left. rewrite (main_load_raises _ E1). constructor. assumption. }
  destruct (reorient_data_rsa T img) as [data|e] eqn:E2.
  2: { left. rewrite (main_reorient_raises _ _ E1 E2). constructor. }
  destruct (select args data) as [[[c name] params]|] eqn:E3.
  2: { left. rewrite (main_no_branch _ _ E1 E2 E3). constructor. }
  destruct (run_denoise T c) as [den|e] eqn:E4.
  2: { left. rewrite (main_denoise_raises _ _ _ _ _ _ E1 E2 E3 E4).
       constructor. }
  destruct (ndarray_sub data den) as [res|] eqn:E5.
  2: { left. rewrite (main_subtract_raises _ _ _ _ _ _ E1 E2 E3 E4 E5).
       constructor. }
  right. exists img, data, c, name, params, den, res. repeat split; assumption.
Qed.

End MainFacts.

(** ** Runs of main, read backwards *)

Section RunFacts.
Context {A : Type} `{Dtype A}.
Variable T : tools A.
Variable args : namespace.

(** A run that ends early displays nothing and saves nothing. *)
Lemma early_end_quiet r :
  early_end T args r -> displays (snd r) = [] /\ saves (snd r) = [].
Proof. destruct 1; simpl; split; reflexivity. Qed.

(** When main returns, either the loader gave no image and nothing else
    happened, or every stage went through. *)
Lemma main_returns_inv tr :
  main_body T args [] = (Ret tt, tr) ->
  (check_valid_image T (in_image args) = Ret None /\
   tr = [EvCheckValidImage (in_image args)])
  \/ exists img data c name params den res,
       prepared T args img data c name params den res /\
       tr = full_trace T args img data c name params den res.
Proof.
  intros E.
  destruct (main_early_or_prepared T args)
    as [E' | (img & data & c & name & params & den & res & P)].
  - rewrite E in E'. inversion E'; subst. left. split; [assumption|reflexivity].
  - right. exists img, data, c, name, params, den, res. split; [assumption|].
    rewrite (main_prepared _ _ _ _ _ _ _ _ _ P) in E. simpl in E.
    destruct (display_image T den _ _); [|discriminate].
    destruct (display_image T res _ _); [|discriminate].
    destruct (save_nifti_image T den _ _ _ _ _ None); [|discriminate].
    inversion E. reflexivity.
Qed.

(** The same, for a run whose loader gave an image. *)
Lemma main_returns_full tr img :
  main_body T args [] = (Ret tt, tr) ->
  check_valid_image T (in_image args) = Ret (Some img) ->
  exists data c name params den res,
    prepared T args img data c name params den res /\
    tr = full_trace T args img data c name params den res.
Proof.
  intros E L.
  destruct (main_returns_inv _ E)
    as [[L' _] | (img' & data & c & name & params & den & res & P & Etr)].
  - congruence.
  - assert (img' = img) by (destruct P as [L' _]; congruence). subst img'.
    exists data, c, name, params, den, res. split; assumption.
Qed.

End RunFacts.

(** ** Runs on the stand-in helpers *)

(** A whole run: [denoise_script brain.nii 1] on the float64 volume. *)
Example gaussian_run :
  main (tools64 true) (bare_command "brain.nii" 1) =
    (Ret tt,
     let data := mk_ndarray [2; 1; 1]%nat [0.1; 0.9]%float in
     let den := mk_ndarray [2; 1; 1]%nat [0.5; 0.9]%float in
     let res := mk_ndarray [2; 1; 1]%nat [(-0.4); 0]%float in
     [ EvCheckValidImage "brain.nii";
       EvReorient volume64;
       EvClock 0;
       EvDenoise (Gaussian data (PyInt 1));
       EvClock 0;
       EvPrint "gaussian" 0;
       EvSubtract data den;
       EvDisplay den [1; 1; 1]%float (PyInt 0);
       EvDisplay res [1; 1; 1]%float (PyInt 0);
       EvSave den identity4 "brain.nii" "gaussian" [PyInt 1] "." None;
       EvSave res identity4 "brain.nii" "gaussian" [PyInt 1] "." (Some true) ]).
Proof. vm_compute. reflexivity. Qed.

(** main does not compare shapes: with a filter that returns one voxel
    for a volume of two, the subtraction broadcasts, main returns, and the
    denoised array written has not the shape of the residual one. *)
Example shapes_rest_on_the_filter :
  let r := main crop_tools (bare_command "brain.nii" 3) in
  fst r = Ret tt /\
  map (fun s => shape (s_array s)) (saves (snd r)) = [[1; 1; 1]; [2; 1; 1]]%nat.
Proof. split; vm_compute; reflexivity. Qed.

(** * The claims *)

(** ** The order of the stages *)

(** A run that ends early went through a first part of the workflow. *)
Lemma early_end_stages {A : Type} `{Dtype A} (T : tools A) (args : namespace) r :
  early_end T args r -> exists rest, stages (snd r) ++ rest = workflow.
Proof. destruct 1; simpl; eexists; reflexivity. Qed.

(** C8: the stages main goes through are, in every run, a first part of
    the sequence load, orientation normalization, denoising, residual,
    display (of the denoised, then of the residual volume), write (of the
    denoised, then of the residual volume), so none is out of place; and
    in every run that loads an image and returns they are the whole
    sequence, so none is skipped. *)
Theorem stages_in_order {A : Type} `{Dtype A} (T : tools A) (c : command_line) :
  let r := main T c in
  (exists rest, stages (snd r) ++ rest = workflow) /\
  (forall img, fst r = Ret tt ->
     check_valid_image T (cl_in_image c) = Ret (Some img) ->
     stages (snd r) = workflow).
Proof.
  intros r. unfold r, main. split.
  - destruct (main_early_or_prepared T (parse_args c))
      as [E | (img & data & cl & name & params & den & res & P)].
    + exact (early_end_stages _ _ _ E).
    + rewrite (main_prepared _ _ _ _ _ _ _ _ _ P). simpl.
      destruct (display_image T den _ _); [|simpl; eexists; reflexivity].
      destruct (display_image T res _ _); [|simpl; eexists; reflexivity].
      destruct (save_nifti_image T den _ _ _ _ _ None);
        simpl; eexists; reflexivity.
  - intros img E L.
    destruct (main_body T (parse_args c) []) as [o tr] eqn:M. simpl in E. subst o.
    destruct (main_returns_full T (parse_args c) _ _ M L)
      as (data & cl & name & params & den & res & _ & ->).
    reflexivity.
Qed.

Lemma stages_in_order_witness :
  stages (snd (main (tools64 true) (bare_command "brain.nii" 1))) = workflow.
Proof.
  apply (proj2 (stages_in_order (tools64 true) (bare_command "brain.nii" 1)) volume64);
    vm_compute; reflexivity.
Defined.

(** ** The affine and the voxel sizes *)

(** C7: in every run of main that loads an image and returns, both calls
    of the writer (the denoised volume first, then the residual one) are
    given the affine read from the input image, and both calls of the
    display are given the voxel sizes read from its header: no stage in
    between changes them. *)
Theorem affine_and_zooms_unchanged {A : Type} `{Dtype A}
    (T : tools A) (c : command_line) (img : image A) (tr : list (event A)) :
  main T c = (Ret tt, tr) ->
  check_valid_image T (cl_in_image c) = Ret (Some img) ->
  map s_affine (saves tr) = [affine img; affine img] /\
  map s_residual (saves tr) = [None; Some true] /\
  map d_voxel_sizes (displays tr) = [get_zooms img; get_zooms img].
Proof.
  intros E L.
  destruct (main_returns_full T (parse_args c) _ _ E L)
    as (data & cl & name & params & den & res & _ & ->).
  repeat split.
Qed.

Lemma affine_and_zooms_unchanged_witness :
  let tr := snd (main tools16 (bare_command "brain.nii" 3)) in
  map s_affine (saves tr) = [identity4; identity4] /\
  map s_residual (saves tr) = [None; Some true] /\
  map d_voxel_sizes (displays tr) = [[1; 1; 1]; [1; 1; 1]]%float.
Proof.
  apply (affine_and_zooms_unchanged tools16 (bare_command "brain.nii" 3) volume16);
    vm_compute; reflexivity.
Defined.

(** ** The branches for the ids 5 and 4 *)

Lemma select_anisotropic {A : Type} `{Dtype A} (args : namespace) (data : ndarray A) :
  denoise_method args = 5%Z ->
  select args data =
    Some (AnisotropicDiffusion data (n args) (kappa args) (gamma args),
          "anisotropic_diffusion", [n args; kappa args; gamma args]).
Proof. intros E. unfold select. rewrite E. reflexivity. Qed.

Lemma select_bilateral {A : Type} `{Dtype A} (args : namespace) (data : ndarray A) :
  denoise_method args = 4%Z ->
  select args data =
    Some (Bilateral data (patch_size args) (sigma_color args) (sigma_spatial args),
          "bilateral", [patch_size args; sigma_color args; sigma_spatial args]).
Proof. intros E. unfold select. rewrite E. reflexivity. Qed.

(** What a run that returns shows of the branch that was taken. *)
Lemma main_returns_branch {A : Type} `{Dtype A}
    (T : tools A) (args : namespace) (img : image A) (data : ndarray A)
    (tr : list (event A)) cl name params :
  main_body T args [] = (Ret tt, tr) ->
  check_valid_image T (in_image args) = Ret (Some img) ->
  reorient_data_rsa T img = Ret data ->
  select args data = Some (cl, name, params) ->
  denoise_calls tr = [cl] /\
  map s_name (saves tr) = [name; name] /\
  map s_parameters (saves tr) = [params; params].
Proof.
  intros E L R S.
  destruct (main_returns_full T args _ _ E L)
    as (data' & cl' & name' & params' & den & res & (_ & R' & S' & _) & ->).
  assert (data' = data) by congruence. subst data'.
  rewrite S in S'. inversion S'; subst. repeat split.
Qed.

(** C6: with method id 5 the chain calls the anisotropic diffusion filter
    on the array it is given, with the iteration count [n], [kappa] and
    [gamma] in this order, and binds the method name
    "anisotropic_diffusion" and the parameter list [n, kappa, gamma]; a run
    of main that returns made this one filter call and named both output
    files with this name and this list. *)
Theorem method_5_anisotropic_diffusion {A : Type} `{Dtype A}
    (T : tools A) (c : command_line) :
  cl_denoise_method c = 5%Z ->
  let args := parse_args c in
  let params := [n args; kappa args; gamma args] in
  (forall (data : ndarray A) (tr0 : list (event A)),
     dispatch T args data tr0 =
       (match denoise_anisotropic_diffusion T data (n args) (kappa args) (gamma args) with
        | Ret d => Ret (mk_locals (Some d) "anisotropic_diffusion" params)
        | Raise e => Raise e
        end,
        tr0 ++ [EvDenoise (AnisotropicDiffusion data (n args) (kappa args) (gamma args))]))
  /\
  (forall (img : image A) (data : ndarray A) (tr : list (event A)),
     main T c = (Ret tt, tr) ->
     check_valid_image T (cl_in_image c) = Ret (Some img) ->
     reorient_data_rsa T img = Ret data ->
     denoise_calls tr = [AnisotropicDiffusion data (n args) (kappa args) (gamma args)] /\
     map s_name (saves tr) = ["anisotropic_diffusion"; "anisotropic_diffusion"] /\
     map s_parameters (saves tr) = [params; params]).
Proof.
  intros M args params. split.
  - intros data tr0. unfold dispatch.
    rewrite (select_anisotropic args data M).
    unfold call, bind, ret. simpl.
    destruct (denoise_anisotropic_diffusion T data _ _ _); reflexivity.
  - intros img data tr E L R.
    exact (main_returns_branch T args img data tr _ _ _ E L R
             (select_anisotropic args data M)).
Qed.

Lemma method_5_anisotropic_diffusion_witness :
  let tr := snd (main tools16 (bare_command "brain.nii" 5)) in
  denoise_calls tr =
    [AnisotropicDiffusion (mk_ndarray [2; 1; 1]%nat [-32000; 900]%Z)
       (PyInt 10) (PyInt 50) (PyFloat 0.1)] /\
  map s_name (saves tr) = ["anisotropic_diffusion"; "anisotropic_diffusion"] /\
  map s_parameters (saves tr) =
    [[PyInt 10; PyInt 50; PyFloat 0.1]; [PyInt 10; PyInt 50; PyFloat 0.1]].
Proof.
  apply (proj2 (method_5_anisotropic_diffusion tools16 (bare_command "brain.nii" 5)
                  eq_refl) volume16);
    vm_compute; reflexivity.
Defined.

(** C10: with method id 4 and no [--sigma_color] on the command line, the
    bilateral filter is called with None as its intensity-difference sigma
    (between the patch size and the spatial sigma), and None stands at the
    same place in the parameter list, with which a run of main that returns
    names both output files. *)
Theorem bilateral_sigma_color_unset {A : Type} `{Dtype A}
    (T : tools A) (c : command_line) :
  cl_denoise_method c = 4%Z ->
  cl_sigma_color c = None ->
  let args := parse_args c in
  let params := [patch_size args; PyNone; sigma_spatial args] in
  (forall (data : ndarray A) (tr0 : list (event A)),
     dispatch T args data tr0 =
       (match denoise_bilateral T data (patch_size args) PyNone (sigma_spatial args) with
        | Ret d => Ret (mk_locals (Some d) "bilateral" params)
        | Raise e => Raise e
        end,
        tr0 ++ [EvDenoise (Bilateral data (patch_size args) PyNone (sigma_spatial args))]))
  /\
  (forall (img : image A) (data : ndarray A) (tr : list (event A)),
     main T c = (Ret tt, tr) ->
     check_valid_image T (cl_in_image c) = Ret (Some img) ->
     reorient_data_rsa T img = Ret data ->
     denoise_calls tr = [Bilateral data (patch_size args) PyNone (sigma_spatial args)] /\
     map s_parameters (saves tr) = [params; params]).
Proof.
  intros M N args params.
  assert (SC : sigma_color args = PyNone) by (unfold args; simpl; rewrite N; reflexivity).
  split.
  - intros data tr0. unfold dispatch.
    rewrite (select_bilateral args data M), SC.
    unfold call, bind, ret. simpl.
    destruct (denoise_bilateral T data _ _ _); reflexivity.
  - intros img data tr E L R.
    pose proof (select_bilateral args data M) as S. rewrite SC in S.
    destruct (main_returns_branch T args img data tr _ _ _ E L R S) as (D & _ & P).
    split; assumption.
Qed.

Lemma bilateral_sigma_color_unset_witness :
  let tr := snd (main (tools64 true) (bare_command "brain.nii" 4)) in
  denoise_calls tr =
    [Bilateral (mk_ndarray [2; 1; 1]%nat [0.1; 0.9]%float) (PyInt 5) PyNone (PyInt 1)] /\
  map s_parameters (saves tr) =
    [[PyInt 5; PyNone; PyInt 1]; [PyInt 5; PyNone; PyInt 1]].
Proof.
  apply (proj2 (bilateral_sigma_color_unset (tools64 true) (bare_command "brain.nii" 4)
                  eq_refl eq_refl) volume64);
    vm_compute; reflexivity.
Defined.

(** ** What is displayed and written *)

(** In a prepared run the denoised and the residual array both come from
    the reoriented array. *)
Lemma prepared_from_reoriented {A : Type} `{Dtype A}
    (T : tools A) (args : namespace) img data c name params den res :
  prepared T args img data c name params den res ->
  from_reoriented T data den /\ from_reoriented T data res.
Proof.
  intros (_ & _ & S & D & R). pose proof (select_input _ _ _ _ _ S) as I.
  split; exists c, den; repeat split; auto.
Qed.

(** What a prepared run displays and saves, however it ends: a prefix of
    what the full trace displays and saves. *)
Lemma prepared_outputs {A : Type} `{Dtype A}
    (T : tools A) (args : namespace) img data c name params den res :
  prepared T args img data c name params den res ->
  let tr := snd (main_body T args []) in
  (forall d, In d (displays tr) ->
     d = mk_displayed den (get_zooms img) \/ d = mk_displayed res (get_zooms img)) /\
  (forall s, In s (saves tr) ->
     s = mk_saved den (affine img) name params None \/
     s = mk_saved res (affine img) name params (Some true)).
Proof.
  intros P. rewrite (main_prepared _ _ _ _ _ _ _ _ _ P). simpl.
  destruct (display_image T den _ _);
    [|simpl; split; intros ? HIn; simpl in HIn; intuition].
  destruct (display_image T res _ _);
    [|simpl; split; intros ? HIn; simpl in HIn; intuition].
  destruct (save_nifti_image T den _ _ _ _ _ None);
    simpl; split; intros ? HIn; simpl in HIn; intuition.
Qed.

(** C9: in every run of main whose loader gave an image and whose
    reorientation returned, every array passed to the display or to the
    writer comes from the reoriented array (it is the result of the filter
    applied to the reoriented array, or the reoriented array minus that
    result), while the affine passed to the writer is the affine of the
    image as loaded, whatever the reorientation did. *)
Theorem arrays_reoriented_affine_original {A : Type} `{Dtype A}
    (T : tools A) (c : command_line) (img : image A) (data : ndarray A) :
  check_valid_image T (cl_in_image c) = Ret (Some img) ->
  reorient_data_rsa T img = Ret data ->
  let tr := snd (main T c) in
  (forall d, In d (displays tr) -> from_reoriented T data (d_array d)) /\
  (forall s, In s (saves tr) ->
     from_reoriented T data (s_array s) /\ s_affine s = affine img).
Proof.
  intros L R tr. unfold tr, main.
  destruct (main_early_or_prepared T (parse_args c))
    as [E | (img' & data' & cl & name & params & den & res & P)].
  - destruct (early_end_quiet _ _ _ E) as [-> ->].
    split; intros ? [].
  - assert (img' = img) by (destruct P as [L' _]; simpl in L'; congruence).
    subst img'.
    assert (data' = data) by (destruct P as (_ & R' & _); congruence).
    subst data'.
    destruct (prepared_from_reoriented _ _ _ _ _ _ _ _ _ P) as [Fd Fr].
    destruct (prepared_outputs _ _ _ _ _ _ _ _ _ P) as [D S].
    split.
    + intros d HIn. destruct (D d HIn) as [-> | ->]; assumption.
    + intros s HIn. destruct (S s HIn) as [-> | ->]; split; auto.
Qed.

Lemma arrays_reoriented_affine_original_witness :
  let tr := snd (main (tools64 true) (bare_command "brain.nii" 0)) in
  let data := mk_ndarray [2; 1; 1]%nat [0.1; 0.9]%float in
  (forall d, In d (displays tr) -> from_reoriented (tools64 true) data (d_array d)) /\
  (forall s, In s (saves tr) ->
     from_reoriented (tools64 true) data (s_array s) /\ s_affine s = identity4).
Proof.
  apply (arrays_reoriented_affine_original (tools64 true)
           (bare_command "brain.nii" 0) volume64);
    vm_compute; reflexivity.
Defined.

(** ** Shapes and the residual *)

(** The stand-in helpers keep the filter contract when [smooth] keeps the
    length of the buffer. *)
Lemma demo_contract {A : Type} `{Dtype A}
    (img : image A) (smooth : list A -> list A) (screen : bool) :
  (forall l, length (smooth l) = length l) ->
  denoise_contract (demo_tools img smooth screen).
Proof.
  intros Hlen c out E.
  destruct c; simpl in E; inversion E; subst; split; simpl; auto.
Qed.

(** Under the filter contract the subtraction of main is the elementwise
    one and keeps the shape. *)
Lemma contract_subtract {A : Type} `{Dtype A}
    (T : tools A) (args : namespace) (data : ndarray A) cl name params den :
  denoise_contract T ->
  select args data = Some (cl, name, params) ->
  run_denoise T cl = Ret den ->
  same_shape data den /\
  ndarray_sub data den =
    Some (mk_ndarray (shape data) (zip_with dsub (flat data) (flat den))).
Proof.
  intros C S D. pose proof (C _ _ D) as SS.
  rewrite (select_input _ _ _ _ _ S) in SS. split; [assumption|].
  apply binop_same_shape. apply SS.
Qed.

(** C3 (the filters being those of the contract of section 4.3): for every
    supported method id, whenever the loader gives an image, the
    reorientation returns and the filter accepts its parameters and
    returns, the subtraction succeeds, the denoised array and the residual
    array have the shape of the reoriented original array, and every array
    that main displays or saves is one of these two. *)
Theorem shapes_identical {A : Type} `{Dtype A}
    (T : tools A) (c : command_line) (img : image A) (data : ndarray A) :
  denoise_contract T ->
  supported (cl_denoise_method c) = true ->
  check_valid_image T (cl_in_image c) = Ret (Some img) ->
  reorient_data_rsa T img = Ret data ->
  exists cl name params,
    select (parse_args c) data = Some (cl, name, params) /\
    forall den, run_denoise T cl = Ret den ->
      exists res,
        ndarray_sub data den = Some res /\
        shape den = shape data /\
        shape res = shape data /\
        let tr := snd (main T c) in
        (forall d, In d (displays tr) -> d_array d = den \/ d_array d = res) /\
        (forall s, In s (saves tr) -> s_array s = den \/ s_array s = res).
Proof.
  intros C M L R.
  destruct (select (parse_args c) data) as [[[cl name] params]|] eqn:S.
  2: { apply select_none in S. simpl in S. congruence. }
  exists cl, name, params. split; [reflexivity|].
  intros den D.
  destruct (contract_subtract T _ _ _ _ _ _ C S D) as [[Sh _] Sub].
  eexists. split; [exact Sub|]. split; [auto|]. split; [reflexivity|].
  assert (P : prepared T (parse_args c) img data cl name params den
                (mk_ndarray (shape data) (zip_with dsub (flat data) (flat den))))
    by (repeat split; assumption).
  destruct (prepared_outputs _ _ _ _ _ _ _ _ _ P) as [Dd Ss].
  split.
  - intros d HIn. destruct (Dd d HIn) as [-> | ->]; auto.
  - intros s HIn. destruct (Ss s HIn) as [-> | ->]; auto.
Qed.

Lemma shapes_identical_witness :
  exists cl name params,
    select (parse_args (bare_command "brain.nii" 3))
      (mk_ndarray [2; 1; 1]%nat [-32000; 900]%Z) = Some (cl, name, params) /\
    forall den, run_denoise tools16 cl = Ret den ->
      exists res,
        ndarray_sub (mk_ndarray [2; 1; 1]%nat [-32000; 900]%Z) den = Some res /\
        shape den = [2; 1; 1]%nat /\
        shape res = [2; 1; 1]%nat /\
        let tr := snd (main tools16 (bare_command "brain.nii" 3)) in
        (forall d, In d (displays tr) -> d_array d = den \/ d_array d = res) /\
        (forall s, In s (saves tr) -> s_array s = den \/ s_array s = res).
Proof.
  apply (shapes_identical tools16 (bare_command "brain.nii" 3) volume16
           (mk_ndarray [2; 1; 1]%nat [-32000; 900]%Z)
           (demo_contract volume16 (smooth2 mean16) true (smooth2_length mean16))
           eq_refl eq_refl eq_refl).
Defined.




(** ** Failures of the display and of the loader *)

(** C5, as the code has it: in a run that reaches the display stage, when
    both calls of the display return, the writer is called on the denoised
    array, and it is called on the residual array too if that first save
    returns; if the first save raises, its exception leaves main and the
    residual array is never passed to the writer.  When a call of the
    display raises, main has no handler for it: the exception leaves main,
    the exit status is 1 and the writer is never called. *)
Theorem display_then_write {A : Type} `{Dtype A}
    (T : tools A) (c : command_line) img data cl name params den res :
  prepared T (parse_args c) img data cl name params den res ->
  let args := parse_args c in
  let r := main T c in
  let show v := display_image T v (get_zooms img) (axe args) in
  let save_denoised :=
    save_nifti_image T den (affine img) (in_image args) name params
      (output_dir args) None in
  (show den = Ret tt -> show res = Ret tt ->
   map s_array (saves (snd r)) =
     match save_denoised with
     | Ret _ => [den; res]
     | Raise _ => [den]
     end) /\
  (forall e, show den = Raise e \/ (show den = Ret tt /\ show res = Raise e) ->
   fst r = Raise e /\ exit_status r = 1%Z /\ saves (snd r) = []) /\
  (forall e, show den = Ret tt -> show res = Ret tt -> save_denoised = Raise e ->
   fst r = Raise e /\ exit_status r = 1%Z /\ map s_array (saves (snd r)) = [den]).
Proof.
  intros P args r show save_denoised. unfold r, main.
  rewrite (main_prepared _ _ _ _ _ _ _ _ _ P). fold args. unfold show, save_denoised.
  split; [|split].
  - intros -> ->. destruct (save_nifti_image T den _ _ _ _ _ None); reflexivity.
  - intros e [-> | [-> ->]]; repeat split.
  - intros e -> -> ->. repeat split.
Qed.

Lemma display_then_write_witness :
  map s_array (saves (snd (main (tools64 true) (bare_command "brain.nii" 1)))) =
    [ mk_ndarray [2; 1; 1]%nat [0.5; 0.9]%float;
      mk_ndarray [2; 1; 1]%nat [(-0.4); 0]%float ].
Proof.
  apply (proj1 (display_then_write (tools64 true) (bare_command "brain.nii" 1)
                  volume64
                  (mk_ndarray [2; 1; 1]%nat [0.1; 0.9]%float)
                  (Gaussian (mk_ndarray [2; 1; 1]%nat [0.1; 0.9]%float) (PyInt 1))
                  "gaussian" [PyInt 1]
                  (mk_ndarray [2; 1; 1]%nat [0.5; 0.9]%float)
                  (mk_ndarray [2; 1; 1]%nat [(-0.4); 0]%float)
                  ltac:(repeat split; vm_compute; reflexivity)));
    reflexivity.
Defined.

(** C5 as stated fails: with no screen the display raises on the denoised
    array; the run has reached the display stage, ends with that exception
    and has written nothing. *)
Lemma headless_display_blocks_writes :
  let r := main (tools64 false) (bare_command "brain.nii" 1) in
  fst r = Raise (ToolError "display_image") /\
  stages (snd r) = [Load; Normalize; Denoising; Residual; Display] /\
  saves (snd r) = [].
Proof. repeat split; vm_compute; reflexivity. Qed.

(** C4, as the code has it: when the loader raises, the exception leaves
    main and the exit status is 1; when the loader returns a false value,
    the [if image:] is not entered, nothing else is called and the exit
    status is 0; when every stage returns, the exit status is 0. *)
Theorem exit_status_of_main {A : Type} `{Dtype A} (T : tools A) (c : command_line) :
  let args := parse_args c in
  let r := main T c in
  (forall e, check_valid_image T (cl_in_image c) = Raise e ->
     r = (Raise e, [EvCheckValidImage (cl_in_image c)]) /\ exit_status r = 1%Z) /\
  (check_valid_image T (cl_in_image c) = Ret None ->
     r = (Ret tt, [EvCheckValidImage (cl_in_image c)]) /\ exit_status r = 0%Z) /\
  (forall img data cl name params den res,
     prepared T args img data cl name params den res ->
     display_image T den (get_zooms img) (axe args) = Ret tt ->
     display_image T res (get_zooms img) (axe args) = Ret tt ->
     save_nifti_image T den (affine img) (in_image args) name params
       (output_dir args) None = Ret tt ->
     save_nifti_image T res (affine img) (in_image args) name params
       (output_dir args) (Some true) = Ret tt ->
     stages (snd r) = workflow /\ exit_status r = 0%Z).
Proof.
  intros args r. unfold r, main. fold args. split; [|split].
  - intros e L. rewrite (main_load_raises T args e L). split; reflexivity.
  - intros L. rewrite (main_load_none T args L). split; reflexivity.
  - intros img data cl name params den res P D1 D2 S1 S2.
    rewrite (main_full T args _ _ _ _ _ _ _ P D1 D2 S1 S2). split; reflexivity.
Qed.

Lemma exit_status_of_main_witness :
  exit_status (main (tools64 true) (bare_command "missing.nii" 0)) = 0%Z /\
  exit_status (main (tools64 true) (bare_command "brain.nii" 0)) = 0%Z.
Proof.
  split.
  - apply (proj1 (proj2 (exit_status_of_main (tools64 true)
                           (bare_command "missing.nii" 0)))).
    reflexivity.
  - apply (proj2 (proj2 (exit_status_of_main (tools64 true)
                           (bare_command "brain.nii" 0)))
             volume64
             (mk_ndarray [2; 1; 1]%nat [0.1; 0.9]%float)
             (NonLocalMeans (mk_ndarray [2; 1; 1]%nat [0.1; 0.9]%float)
                (PyInt 30) (PyInt 5) (PyInt 5))
             "nl_means" [PyInt 30; PyInt 5; PyInt 5]
             (mk_ndarray [2; 1; 1]%nat [0.5; 0.9]%float)
             (mk_ndarray [2; 1; 1]%nat [(-0.4); 0]%float));
      repeat split; vm_compute; reflexivity.
Defined.

(** C4 as stated fails: the loader finds no image at "missing.nii" and
    returns None; main returns without another call and the exit status
    is 0. *)
Lemma missing_image_exits_zero :
  let r := main (tools64 true) (bare_command "missing.nii" 1) in
  check_valid_image (tools64 true) "missing.nii" = Ret None /\
  r = (Ret tt, [EvCheckValidImage "missing.nii"]) /\
  exit_status r = 0%Z.
Proof. repeat split. Qed.

(** ** A method id the chain does not test for *)

(** For every id outside 0, 1, 3, 4, 5, once the image is loaded and
    reoriented: no filter is called, the timing line is printed with the
    empty method name, and reading [denoised_image] for the subtraction
    raises UnboundLocalError. *)
Lemma unsupported_method_unbound_local {A : Type} `{Dtype A}
    (T : tools A) (c : command_line) (img : image A) (data : ndarray A) :
  supported (cl_denoise_method c) = false ->
  check_valid_image T (cl_in_image c) = Ret (Some img) ->
  reorient_data_rsa T img = Ret data ->
  main T c =
    (Raise (UnboundLocalError "denoised_image"),
     [ EvCheckValidImage (cl_in_image c); EvReorient img;
       EvClock (time_time T 2); EvClock (time_time T 3);
       EvPrint EmptyString (PrimFloat.sub (time_time T 3) (time_time T 2)) ]).
Proof.
  intros M L R. unfold main.
  apply (main_no_branch T (parse_args c) img data L R).
  apply select_none. exact M.
Qed.

(** C1, what the code does at id 2: the chain has no branch for 2 and no
    else; main prints the timing line with the empty method name and then
    raises UnboundLocalError (not an error that names the method) when it
    reads [denoised_image]; the display and the writer are not reached and
    the exit status is 1. *)
Theorem method_2_unbound_local :
  let r := main (tools64 true) (bare_command "brain.nii" 2) in
  supported 2 = false /\
  r = (Raise (UnboundLocalError "denoised_image"),
       [ EvCheckValidImage "brain.nii"; EvReorient volume64;
         EvClock 0; EvClock 0; EvPrint EmptyString 0 ]) /\
  stages (snd r) = [Load; Normalize] /\
  exit_status r = 1%Z.
Proof.
  assert (E := unsupported_method_unbound_local (tools64 true)
                 (bare_command "brain.nii" 2) volume64
                 (mk_ndarray [2; 1; 1]%nat [0.1; 0.9]%float)
                 eq_refl eq_refl eq_refl).
  cbv zeta. rewrite E. repeat split.
Qed.

(** * More about main *)

(** ** Every run, case by case *)

Lemma main_run {A : Type} `{Dtype A} (T : tools A) (args : namespace) :
  run_ends T args (main_body T args []).
Proof.
  destruct (check_valid_image T (in_image args)) as [[img|]|e] eqn:E1.
  2: { rewrite (main_load_none T args E1). constructor. assumption. }
  2: { rewrite (main_load_raises T args e E1). constructor. assumption. }
  destruct (reorient_data_rsa T img) as [data|e] eqn:E2.
  2: { rewrite (main_reorient_raises T args img e E1 E2). constructor; assumption. }
  destruct (select args data) as [[[c name] params]|] eqn:E3.
  2: { rewrite (main_no_branch T args img data E1 E2 E3).
       apply NoBranch with (data := data); assumption. }
  destruct (run_denoise T c) as [den|e] eqn:E4.
  2: { rewrite (main_denoise_raises T args img data c name params e E1 E2 E3 E4).
       constructor; assumption. }
  destruct (ndarray_sub data den) as [res|] eqn:E5.
  2: { rewrite (main_subtract_raises T args img data c name params den E1 E2 E3 E4 E5).
       constructor; assumption. }
  assert (P : prepared T args img data c name params den res)
    by (repeat split; assumption).
  rewrite (main_prepared T args img data c name params den res P). cbv zeta.
  destruct (display_image T den _ _) as [[]|e] eqn:D1.
  2: { apply DisplayDenoisedRaises; assumption. }
  destruct (display_image T res _ _) as [[]|e] eqn:D2.
  2: { apply DisplayResidualRaises; assumption. }
  destruct (save_nifti_image T den _ _ _ _ _ None) as [[]|e] eqn:S1.
  2: { apply SaveDenoisedRaises; assumption. }
  apply SaveResidual; auto.
Qed.

(** Case analysis on the run of main on the namespace [a]. *)
Ltac run_cases T a :=
  let r := fresh "r" in
  let Hr := fresh "Hr" in
  let R := fresh "R" in
  pose proof (main_run T a) as R;
  remember (main_body T a []) as r eqn:Hr;
  destruct R.

(** ** What a run depends on *)

Lemma select_same_request {A : Type} `{Dtype A} (a1 a2 : namespace) (data : ndarray A) :
  denoise_method a1 = denoise_method a2 ->
  used_options a1 = used_options a2 ->
  select a1 data = select a2 data.
Proof.
  unfold select, used_options. intros <- U.
  destruct (denoise_method a1 =? 0)%Z; [inversion U; congruence|].
  destruct (denoise_method a1 =? 1)%Z; [inversion U; congruence|].
  destruct (denoise_method a1 =? 3)%Z; [inversion U; congruence|].
  destruct (denoise_method a1 =? 4)%Z; [inversion U; congruence|].
  destruct (denoise_method a1 =? 5)%Z; [inversion U; congruence|].
  reflexivity.
Qed.

Lemma main_body_same_request {A : Type} `{Dtype A} (T : tools A) (a1 a2 : namespace) :
  same_request a1 a2 -> main_body T a1 [] = main_body T a2 [].
Proof.
  intros (I & M & O & X & U). unfold_main. rewrite <- I, <- O, <- X.
  destruct (check_valid_image T (in_image a1)) as [[img|]|e]; try reflexivity. simpl.
  destruct (reorient_data_rsa T img) as [data|e]; try reflexivity. simpl.
  rewrite <- (select_same_request a1 a2 data M U). reflexivity.
Qed.

(** X1: a run of main depends on the command line only through the input
    path, the method id, the output directory, the display axis and the
    options the chosen method reads: two command lines that agree on these
    give the same calls, in the same order, and the same result, whatever
    the other options are. *)
Theorem unused_options_ignored {A : Type} `{Dtype A}
    (T : tools A) (c1 c2 : command_line) :
  same_request (parse_args c1) (parse_args c2) ->
  main T c1 = main T c2.
Proof. intros S. unfold main. apply main_body_same_request. exact S. Qed.

Lemma unused_options_ignored_witness :
  let c1 := mk_command_line "brain.nii" 1 None None (Some 2.5%float) None
              None None None None None None None in
  let c2 := mk_command_line "brain.nii" 1 None None (Some 2.5%float) (Some 7%Z)
              (Some 9%Z) (Some 12%Z) (Some 0.3%float) (Some 1.5%float) (Some 4%Z)
              (Some 20%float) (Some 0.2%float) in
  main (tools64 true) c1 = main (tools64 true) c2.
Proof.
  apply (unused_options_ignored (tools64 true)). repeat split.
Defined.

(** ** Method names *)

(** The five names, each with its id and the length of its parameter list. *)
Lemma select_name {A : Type} `{Dtype A} (a : namespace) (d : ndarray A) c name p :
  select a d = Some (c, name, p) ->
  (denoise_method a = 0%Z /\ name = "nl_means" /\ length p = 3) \/
  (denoise_method a = 1%Z /\ name = "gaussian" /\ length p = 1) \/
  (denoise_method a = 3%Z /\ name = "median" /\ length p = 1) \/
  (denoise_method a = 4%Z /\ name = "bilateral" /\ length p = 3) \/
  (denoise_method a = 5%Z /\ name = "anisotropic_diffusion" /\ length p = 3).
Proof.
  unfold select.
  destruct (Z.eqb_spec (denoise_method a) 0);
    [intros S; inversion S; subst; tauto|].
  destruct (Z.eqb_spec (denoise_method a) 1);
    [intros S; inversion S; subst; tauto|].
  destruct (Z.eqb_spec (denoise_method a) 3);
    [intros S; inversion S; subst; tauto|].
  destruct (Z.eqb_spec (denoise_method a) 4);
    [intros S; inversion S; subst; tauto|].
  destruct (Z.eqb_spec (denoise_method a) 5);
    [intros S; inversion S; subst; tauto|].
  discriminate.
Qed.

(** X2: the method name a branch binds identifies the branch: two runs of
    the chain that bind the same name were given the same method id and
    bound parameter lists of the same length. *)
Theorem method_name_identifies_method {A : Type} `{Dtype A}
    (a1 a2 : namespace) (d1 d2 : ndarray A) c1 c2 name p1 p2 :
  select a1 d1 = Some (c1, name, p1) ->
  select a2 d2 = Some (c2, name, p2) ->
  denoise_method a1 = denoise_method a2 /\ length p1 = length p2.
Proof.
  intros S1 S2.
  destruct (select_name _ _ _ _ _ S1)
    as [(M1 & N1 & L1)|[(M1 & N1 & L1)|[(M1 & N1 & L1)|[(M1 & N1 & L1)|(M1 & N1 & L1)]]]];
  destruct (select_name _ _ _ _ _ S2)
    as [(M2 & N2 & L2)|[(M2 & N2 & L2)|[(M2 & N2 & L2)|[(M2 & N2 & L2)|(M2 & N2 & L2)]]]];
  try (rewrite N1 in N2; discriminate); split; congruence.
Qed.

Lemma method_name_identifies_method_witness :
  denoise_method (parse_args (bare_command "brain.nii" 3)) =
  denoise_method (parse_args (busy_command "other.nii" 3)) /\
  length [PyInt 5] = length [PyInt 7].
Proof.
  apply (method_name_identifies_method
           (parse_args (bare_command "brain.nii" 3))
           (parse_args (busy_command "other.nii" 3))
           (mk_ndarray [1]%nat [1%Z]) (mk_ndarray [2]%nat [3; 4]%Z)
           (Median (mk_ndarray [1]%nat [1%Z]) (PyInt 5))
           (Median (mk_ndarray [2]%nat [3; 4]%Z) (PyInt 7))
           "median" [PyInt 5] [PyInt 7]); reflexivity.
Defined.

(** ** When main returns and what it raises *)

Lemma demo_total {A : Type} `{Dtype A} (img : image A) (smooth : list A -> list A) :
  total_tools (demo_tools img smooth true).
Proof.
  repeat split; simpl; intros.
  - destruct (String.eqb path "missing.nii"); eexists; reflexivity.
  - eexists; reflexivity.
  - destruct c; eexists; reflexivity.
Qed.

Lemma supported_select {A : Type} `{Dtype A} (args : namespace) (data : ndarray A) :
  supported (denoise_method args) = true ->
  exists c name params, select args data = Some (c, name, params).
Proof.
  intros S. destruct (select args data) as [[[c name] params]|] eqn:E.
  - exists c, name, params. reflexivity.
  - apply select_none in E. congruence.
Qed.

(** X3: with helpers that never raise and filters that keep the shape,
    main returns exactly when the loader gave no image or the method id is
    one of 0, 1, 3, 4, 5; in every other case an exception leaves it. *)
Theorem main_returns_iff {A : Type} `{Dtype A} (T : tools A) (c : command_line) :
  total_tools T ->
  denoise_contract T ->
  fst (main T c) = Ret tt <->
  (check_valid_image T (cl_in_image c) = Ret None \/
   supported (cl_denoise_method c) = true).
Proof.
  intros (TL & TR & TD & TS & TW) C. unfold main. split.
  - intros E. run_cases T (parse_args c); simpl in E; try discriminate.
    + left. assumption.
    + right.
      match goal with
      | P : prepared _ _ _ _ _ _ _ _ _ |- _ => destruct P as (_ & _ & S & _)
      end.
      destruct (supported (cl_denoise_method c)) eqn:Su; [reflexivity|].
      apply (select_none (parse_args c) data) in Su. congruence.
  - intros [L | S].
    + rewrite (main_load_none T (parse_args c) L). reflexivity.
    + destruct (TL (cl_in_image c)) as [[img|] L].
      2: { rewrite (main_load_none T (parse_args c) L). reflexivity. }
      destruct (TR img) as [data R].
      destruct (supported_select (parse_args c) data S) as (cl & name & params & Se).
      destruct (TD cl) as [den D].
      destruct (contract_subtract T _ _ _ _ _ _ C Se D) as [_ Sub].
      rewrite (main_full T (parse_args c) img data cl name params den _
                 (conj L (conj R (conj Se (conj D Sub))))
                 (TS _ _ _) (TS _ _ _) (TW _ _ _ _ _ _ _) (TW _ _ _ _ _ _ _)).
      reflexivity.
Qed.

Lemma main_returns_iff_witness :
  fst (main tools16 (bare_command "brain.nii" 4)) = Ret tt /\
  fst (main tools16 (bare_command "brain.nii" 2)) <> Ret tt.
Proof.
  split.
  - apply (proj2 (main_returns_iff tools16 (bare_command "brain.nii" 4)
                    (demo_total volume16 (smooth2 mean16))
                    (demo_contract volume16 (smooth2 mean16) true
                       (smooth2_length mean16)))).
    right. reflexivity.
  - intros E.
    destruct (proj1 (main_returns_iff tools16 (bare_command "brain.nii" 2)
                       (demo_total volume16 (smooth2 mean16))
                       (demo_contract volume16 (smooth2 mean16) true
                          (smooth2_length mean16))) E) as [L | S];
      discriminate.
Defined.



(** X7: for a method id the chain does not test for, whatever the helpers
    do, no filter is called, nothing is displayed and nothing is saved;
    the image is still loaded and reoriented first, and main returns only
    if the loader gave no image. *)
Theorem unsupported_method_quiet {A : Type} `{Dtype A}
    (T : tools A) (c : command_line) :
  supported (cl_denoise_method c) = false ->
  let r := main T c in
  denoise_calls (snd r) = [] /\ displays (snd r) = [] /\ saves (snd r) = [] /\
  (fst r = Ret tt -> check_valid_image T (cl_in_image c) = Ret None) /\
  (forall img, check_valid_image T (cl_in_image c) = Ret (Some img) ->
     In (EvReorient img) (snd r)).
Proof.
  intros Su r. unfold r, main.
  assert (N : forall (data : ndarray A) cl name params,
             select (parse_args c) data <> Some (cl, name, params)).
  { intros data cl name params E.
    apply (select_none (parse_args c) data) in Su. congruence. }
  run_cases T (parse_args c); simpl;
    try (exfalso; eapply N; eassumption);
    try (exfalso;
         match goal with
         | P : prepared _ _ _ _ _ _ _ _ _ |- _ =>
             destruct P as (_ & _ & S & _); eapply N; exact S
         end).
  all: repeat split; try discriminate; simpl in *; intros;
    try congruence; right; left; congruence.
Qed.

Lemma unsupported_method_quiet_witness :
  let r := main (tools64 true) (busy_command "brain.nii" 7) in
  denoise_calls (snd r) = [] /\ displays (snd r) = [] /\ saves (snd r) = [] /\
  (fst r = Ret tt -> check_valid_image (tools64 true) "brain.nii" = Ret None) /\
  (forall img, check_valid_image (tools64 true) "brain.nii" = Ret (Some img) ->
     In (EvReorient img) (snd r)).
Proof.
  apply (unsupported_method_quiet (tools64 true) (busy_command "brain.nii" 7)).
  reflexivity.
Defined.

(** ** The timing line *)

(** X5: the time main prints covers the filter call and nothing else.
    When a timing line is printed, the run began with the load and the
    reorientation, then read the clock, made at most one filter call, read
    the clock again and printed the difference of the two readings; what
    comes after (subtraction, display, saving) reads no clock and prints
    nothing, so the line is printed once. *)
Theorem timing_covers_filter_only {A : Type} `{Dtype A}
    (T : tools A) (c : command_line) (name : string) (t : float) :
  In (EvPrint name t) (snd (main T c)) ->
  exists img t0 t1 calls rest,
    snd (main T c) =
      [EvCheckValidImage (cl_in_image c); EvReorient img; EvClock t0]
      ++ map (@EvDenoise A) calls
      ++ [EvClock t1; EvPrint name t] ++ rest /\
    t = PrimFloat.sub t1 t0 /\
    length calls <= 1 /\
    Forall (fun e => stage_of e <> None) rest /\
    printed_names (snd (main T c)) = [name].
Proof.
  unfold main. intros HIn.
  run_cases T (parse_args c); unfold full_trace in *; simpl in HIn |- *;
    repeat match goal with
           | HIn : _ \/ _ |- _ => destruct HIn as [HIn | HIn]
           end;
    try discriminate; try contradiction; inversion HIn; subst;
    first
      [ do 3 eexists; exists []; eexists; split; [reflexivity|]
      | do 3 eexists; eexists [_]; eexists; split; [reflexivity|] ];
    (split; [reflexivity|]); (split; [simpl; lia|]);
    (split; [repeat constructor; discriminate | reflexivity]).
Qed.

Lemma timing_covers_filter_only_witness :
  exists img t0 t1 calls rest,
    snd (main (tools64 false) (bare_command "brain.nii" 0)) =
      [EvCheckValidImage "brain.nii"; EvReorient img; EvClock t0]
      ++ map (@EvDenoise float) calls
      ++ [EvClock t1; EvPrint "nl_means" 0%float] ++ rest /\
    0%float = PrimFloat.sub t1 t0 /\
    length calls <= 1 /\
    Forall (fun e => stage_of e <> None) rest /\
    printed_names (snd (main (tools64 false) (bare_command "brain.nii" 0))) = ["nl_means"].
Proof.
  apply (timing_covers_filter_only (tools64 false) (bare_command "brain.nii" 0)).
  vm_compute. tauto.
Defined.

(** ** How often and in what order the helpers are called *)

(** X6: in every run, whatever the helpers do, main calls at most one
    filter, the display at most twice and the writer at most twice;
    nothing is displayed unless a filter was called, nothing is saved
    unless the display was called twice, and the residual is never saved
    before the denoised array. *)
Theorem calls_are_guarded {A : Type} `{Dtype A} (T : tools A) (c : command_line) :
  let tr := snd (main T c) in
  length (denoise_calls tr) <= 1 /\
  length (displays tr) <= 2 /\
  length (saves tr) <= 2 /\
  (displays tr <> [] -> length (denoise_calls tr) = 1) /\
  (saves tr <> [] -> length (displays tr) = 2) /\
  (exists rest, map s_residual (saves tr) ++ rest = [None; Some true]).
Proof.
  intros tr. unfold tr, main.
  run_cases T (parse_args c); unfold full_trace; simpl;
    repeat split; try lia; try congruence; eexists; reflexivity.
Qed.

(** X8: in every run, the calls of the writer all name the input path of
    the command line, its output directory (the current directory when
    [--output_dir] is not given), one method name and one parameter list;
    and when something is saved, that method name is the one printed in
    the timing line. *)
Theorem output_names_agree {A : Type} `{Dtype A} (T : tools A) (c : command_line) :
  let tr := snd (main T c) in
  exists name params,
    Forall (fun x => x = (cl_in_image c,
                          match cl_output_dir c with Some d => d | None => "." end,
                          name, params))
           (save_targets tr) /\
    (saves tr <> [] -> printed_names tr = [name]).
Proof.
  intros tr. unfold tr, main.
  run_cases T (parse_args c); unfold full_trace; simpl;
    try (exists EmptyString, []; split; [constructor | congruence]);
    exists name, params; (split; [repeat constructor | reflexivity]).
Qed.

(** ** Shapes that differ *)

Lemma list_eqb_neq (s1 s2 : list nat) : s1 <> s2 -> list_eqb s1 s2 = false.
Proof. intros N. unfold list_eqb. destruct (list_eq_dec Nat.eq_dec s1 s2); congruence. Qed.

(** X9: main does not compare the shape of what the filter returns with
    the shape of its input.  When they differ, the subtraction decides:
    if the two shapes do not broadcast, the run ends with a ValueError and
    nothing is displayed or saved; if they do, the run goes on silently,
    the residual has the broadcast shape and the denoised array is passed
    to the display. *)
Theorem shape_mismatch_unchecked {A : Type} `{Dtype A}
    (T : tools A) (c : command_line) img data cl name params den :
  check_valid_image T (cl_in_image c) = Ret (Some img) ->
  reorient_data_rsa T img = Ret data ->
  select (parse_args c) data = Some (cl, name, params) ->
  run_denoise T cl = Ret den ->
  shape data <> shape den ->
  let r := main T c in
  match broadcast_shapes (shape data) (shape den) with
  | None =>
      fst r = Raise (ValueError "operands could not be broadcast together") /\
      displays (snd r) = [] /\ saves (snd r) = []
  | Some s =>
      exists res, ndarray_sub data den = Some res /\ shape res = s /\
        hd_error (displays (snd r)) = Some (mk_displayed den (get_zooms img))
  end.
Proof.
  intros L R S D N r. unfold r, main.
  assert (Sub : ndarray_sub data den = broadcast_binop dsub data den).
  { unfold ndarray_sub, ndarray_binop. rewrite (list_eqb_neq _ _ N). reflexivity. }
  unfold broadcast_binop in Sub.
  destruct (broadcast_shapes (shape data) (shape den)) as [s|].
  - eexists. split; [exact Sub|]. split; [reflexivity|].
    rewrite (main_prepared T (parse_args c) img data cl name params den _
               (conj L (conj R (conj S (conj D Sub))))).
    cbv zeta. unfold full_trace.
    destruct (display_image T den _ _); [|reflexivity].
    destruct (display_image T _ _ _); [|reflexivity].
    destruct (save_nifti_image T den _ _ _ _ _ None); reflexivity.
  - rewrite (main_subtract_raises T (parse_args c) img data cl name params den
               L R S D Sub).
    repeat split.
Qed.

Lemma shape_mismatch_unchecked_witness :
  exists res,
    ndarray_sub (mk_ndarray [2; 1; 1]%nat [-32000; 900]%Z)
                (mk_ndarray [1; 1; 1]%nat [-32000]%Z) = Some res /\
    shape res = [2; 1; 1]%nat /\
    hd_error (displays (snd (main crop_tools (bare_command "brain.nii" 3)))) =
      Some (mk_displayed (mk_ndarray [1; 1; 1]%nat [-32000]%Z) [1; 1; 1]%float).
Proof.
  apply (shape_mismatch_unchecked crop_tools (bare_command "brain.nii" 3) volume16
           (mk_ndarray [2; 1; 1]%nat [-32000; 900]%Z)
           (Median (mk_ndarray [2; 1; 1]%nat [-32000; 900]%Z) (PyInt 5))
           "median" [PyInt 5]
           (mk_ndarray [1; 1; 1]%nat [-32000]%Z));
    try reflexivity.
  discriminate.
Defined.

(** ** What is saved was displayed *)

(** X10: in every run, the arrays given to the writer are, in order, a
    first part of the arrays given to the display: nothing is saved that
    was not displayed before; and every call of the display is given the
    axis of [--axe], 0 when the option is not given. *)
Theorem saved_was_displayed {A : Type} `{Dtype A} (T : tools A) (c : command_line) :
  let tr := snd (main T c) in
  (exists rest, map s_array (saves tr) ++ rest = map d_array (displays tr)) /\
  Forall (fun a => a = match cl_axe c with Some z => PyInt z | None => PyInt 0 end)
         (display_axes tr).
Proof.
  intros tr. unfold tr, main.
  run_cases T (parse_args c); unfold full_trace; simpl;
    (split; [eexists; reflexivity | repeat constructor]).
Qed.
